(** * RadiaCode track viewer: data reduction and colour-mapping pipeline

    A shallow embedding of [RadiaCodeMapViewer2.py] (class [MapWindow] and
    class [TimePlotWindow]) and of the parser of [RadiaCodeMapViewer.py].

    Conventions of the embedding.
    - Python floats are exact rationals ([Q]); a float that is NaN, and an
      attribute that is still [None], are both [None] in [option Q].
    - A timestamp is an integer number of nanoseconds ([Z]), read as a naive
      wall-clock value, which is what pandas and [toPyDateTime] compare.
    - The window object is a record that every method takes and returns; a
      method that can leave through an exception returns a [result] that
      still carries the object as mutated up to the raise.
    - pandas, matplotlib, branca, folium, plotly and Qt are not part of the
      repository.  What the program needs from them is either written out
      from their documented behaviour, next to the call that uses it, or
      taken from the class [Platform]. *)

From Stdlib Require Import List ZArith QArith Qround String Bool Sorted Lia Lqa.
Import ListNotations.

Local Open Scope string_scope.
Local Open Scope Q_scope.

(** ** Values *)

(** A float that may be NaN. *)
Definition fq := option Q.

Definition fadd (a b : fq) : fq :=
  match a, b with Some x, Some y => Some (x + y) | _, _ => None end.

Definition fsub (a b : fq) : fq :=
  match a, b with Some x, Some y => Some (x - y) | _, _ => None end.

Definition fmul (a b : fq) : fq :=
  match a, b with Some x, Some y => Some (x * y) | _, _ => None end.

(** [a >= b] on floats: false as soon as one side is NaN. *)
Definition fge (a b : fq) : bool :=
  match a, b with Some x, Some y => Qle_bool y x | _, _ => false end.

Definition Qlt_bool (x y : Q) : bool := negb (Qle_bool y x).

(** [Series.min()] and [Series.max()]: the extremum of a column, NaN (NaT
    for timestamps) when the column is empty. *)
Fixpoint series_ext {A : Type} (leb : A -> A -> bool) (l : list A) : option A :=
  match l with
  | [] => None
  | x :: r =>
      match series_ext leb r with
      | None => Some x
      | Some m => Some (if leb x m then x else m)
      end
  end.

Definition series_min (l : list Q) : fq := series_ext Qle_bool l.
Definition series_max (l : list Q) : fq := series_ext (fun x y => Qle_bool y x) l.
Definition time_min (l : list Z) : option Z := series_ext Z.leb l.
Definition time_max (l : list Z) : option Z := series_ext Z.geb l.

Fixpoint Qsum (l : list Q) : Q :=
  match l with
  | [] => 0
  | x :: r => x + Qsum r
  end.

(** [Series.mean()].  pandas gives NaN on an empty column; every call of the
    program is behind an emptiness guard. *)
Definition mean (l : list Q) : Q := Qsum l / inject_Z (Z.of_nat (List.length l)).

(** ** Rows and frames *)

(** One row of the five columns the program keeps.  [T] is the type of the
    [Time] entry and [V] of the four measurements: raw cells as read from
    the file, a timestamp after [pd.to_datetime], floats in a numeric
    frame. *)
Record Row (T V : Type) : Type := mkRow {
  Time : T;
  Latitude : V;
  Longitude : V;
  DoseRate : V;
  CountRate : V
}.

Arguments mkRow {T V} _ _ _ _ _.
Arguments Time {T V} _.
Arguments Latitude {T V} _.
Arguments Longitude {T V} _.
Arguments DoseRate {T V} _.
Arguments CountRate {T V} _.

(** A field of the tab-separated file as [pd.read_csv] classifies it: a
    missing value, a number, or any other text. *)
Inductive cell : Type :=
| NA
| Num (q : Q)
| Txt (s : string).



Definition Sample := Row Z Q.
Definition DataFrame := list Sample.

Inductive Metric : Type := MDoseRate | MCountRate.

Definition Metric_eqb (a b : Metric) : bool :=
  match a, b with
  | MDoseRate, MDoseRate | MCountRate, MCountRate => true
  | _, _ => false
  end.

(** [row[metric]] *)
Definition getitem (metric : Metric) (row : Sample) : Q :=
  match metric with
  | MDoseRate => DoseRate row
  | MCountRate => CountRate row
  end.

Definition metric_name (metric : Metric) : string :=
  match metric with
  | MDoseRate => "DoseRate"
  | MCountRate => "CountRate"
  end.

Definition metricUnits (metric : Metric) : string :=
  match metric with
  | MDoseRate => "ÂµSv/h"
  | MCountRate => "cps"
  end.

(** ** What the program takes from its libraries and its host *)

Class Platform : Type := {
  (** a colour as a hex string *)
  Color : Type;
  (** [colormaps[name]]: the lookup table of the named palette, each entry
      already through [colors.rgb2hex] *)
  colormaps : string -> list Color;
  (** branca's mix of two neighbouring stops, [(1 - p) * c0 + p * c1] on
      every channel *)
  blend : Q -> Color -> Color -> Color;
  (** the colour read where a table or a list of stops has no entry *)
  bad : Color;
  (** [pd.to_datetime] on one entry of the [Time] column: [None] when pandas
      raises *)
  to_datetime : cell -> option Z;
  (** offset of the local time zone from UTC, in nanoseconds *)
  utcoffset : Z
}.

(** ** Track parser *)

Module Parser.







Section WithPlatform.
Context {P : Platform}.



End WithPlatform.


(** The parsed rows as a numeric frame, when the four measurement columns
    hold numbers only. *)
Definition as_float (c : cell) : option Q :=
  match c with Num q => Some q | _ => None end.

Fixpoint numeric_frame (rows : list (Row Z cell)) : option DataFrame :=
  match rows with
  | [] => Some []
  | r :: rs =>
      match as_float (Latitude r), as_float (Longitude r),
            as_float (DoseRate r), as_float (CountRate r), numeric_frame rs with
      | Some la, Some lo, Some d, Some c, Some rs' =>
          Some (mkRow (Time r) la lo d c :: rs')
      | _, _, _, _, _ => None
      end
  end.

End Parser.

(** ** Colour mapper *)

Section ColorMapper.
Context {P : Platform}.

(** [colors.Normalize(vmin, vmax)(value)], without clipping. *)
Definition Normalize (vmin vmax value : Q) : Q := (value - vmin) / (vmax - vmin).

(** [colormap(x)] for a float [x], as a lookup in the palette's table of [N]
    entries: [x * N] truncated, [x = 1] on the last entry, anything below 0
    on the first and anything above on the last. *)
Definition colormap_call (lut : list Color) (x : Q) : Color :=
  let N := List.length lut in
  let xa := x * inject_Z (Z.of_nat N) in
  if Qeq_bool xa (inject_Z (Z.of_nat N)) then nth (N - 1) lut bad
  else if Qlt_bool xa 0 then nth 0 lut bad
  else if Qle_bool (inject_Z (Z.of_nat N)) xa then nth (N - 1) lut bad
  else nth (Z.to_nat (Qfloor xa)) lut bad.

(** [np.linspace(start, stop, num)] *)
Definition linspace (start stop : Q) (num : nat) : list Q :=
  match num with
  | O => []
  | S O => [start]
  | S n =>
      let step := (stop - start) / inject_Z (Z.of_nat n) in
      (map (fun i => inject_Z (Z.of_nat i) * step + start) (seq 0 n) ++ [stop])%list
  end.

(** A [branca.colormap.LinearColormap]: its stops, the values they sit at
    and the caption of the colour bar. *)
Record LinearColormap : Type := mkLinearColormap {
  colors : list Color;
  index : list Q;
  vmin : Q;
  vmax : Q;
  caption : string
}.

(** [LinearColormap(colors, vmin=vmin, vmax=vmax, caption=caption)]: with no
    index given, the stops are spread evenly over [vmin, vmax]. *)
Definition new_LinearColormap (cs : list Color) (lo hi : Q) (cap : string)
  : LinearColormap :=
  let n := List.length cs in
  {| colors := cs;
     index := map (fun i => lo + (hi - lo) * inject_Z (Z.of_nat i)
                                 / inject_Z (Z.of_nat n - 1)) (seq 0 n);
     vmin := lo;
     vmax := hi;
     caption := cap |}.

(** [linear_colormap(x)]: the first stop at or below the first index, the
    last stop at or above the last index, a mix of the two neighbouring
    stops in between; [None] for the [ValueError] branca raises when two
    neighbouring indexes are out of order. *)
Definition colormap_at (cm : LinearColormap) (x : Q) : option Color :=
  if Qle_bool x (nth 0 (index cm) 0) then Some (nth 0 (colors cm) bad)
  else if Qle_bool (last (index cm) 0) x then Some (last (colors cm) bad)
  else
    let i := List.length (filter (fun u => Qlt_bool u x) (index cm)) in
    let a := nth (i - 1) (index cm) 0 in
    let b := nth i (index cm) 0 in
    if Qlt_bool a b then
      Some (blend ((x - a) / (b - a)) (nth (i - 1) (colors cm) bad) (nth i (colors cm) bad))
    else if Qeq_bool a b then
      Some (blend 1 (nth (i - 1) (colors cm) bad) (nth i (colors cm) bad))
    else None.

(** The colour scale [load_map] builds for a range and a palette: 256 stops,
    the palette sampled at the normalised position of evenly spaced values. *)
Definition build_colormap (name : string) (metric_min metric_max : Q) (cap : string)
  : LinearColormap :=
  new_LinearColormap
    (map (fun value => colormap_call (colormaps name) (Normalize metric_min metric_max value))
         (linspace metric_min metric_max 256))
    metric_min metric_max cap.

(** ** Artifacts *)

(** A [folium.CircleMarker]; the popup text is kept as the three values it
    is formatted from. *)
Record CircleMarker : Type := mkCircleMarker {
  location : Q * Q;
  color : Color;
  popup : Metric * Q * Z
}.

(** The document [map_object.save] writes: the basemap, the markers and the
    colour bar. *)
Record Map : Type := mkMap {
  map_location : Q * Q;
  zoom_start : Z;
  markers : list CircleMarker;
  legend : option LinearColormap
}.

(** The document [fig.write_html] writes: one trace, its points in the
    order plotly receives them. *)
Record Figure : Type := mkFigure {
  title : string;
  xaxis_title : string;
  yaxis_title : string;
  trace : list (Z * Q)
}.

(** [px.line(data, x="Time", y=metric, ...)] followed by [update_layout]:
    plotly draws the rows in the order of the frame. *)
Definition plot_data (data : DataFrame) (metric : Metric) : Figure :=
  {| title := metric_name metric ++ " vs Time";
     xaxis_title := "Time";
     yaxis_title := metric_name metric;
     trace := map (fun row => (Time row, getitem metric row)) data |}.

(** ** The window *)

Record Extrema : Type := mkExtrema {
  min_time : option Z;
  max_time : option Z;
  min_doseRate : fq;
  max_doseRate : fq;
  min_countRate : fq;
  max_countRate : fq;
  range_doseRate : fq;
  range_countRate : fq
}.

(** The state of the controls.  A label is the value it shows and its unit;
    the enabled flag of the two buttons is left out. *)
Record Widgets : Type := mkWidgets {
  display_field_dropdown : Metric;
  colormap_dropdown : string;
  start_time_edit : Z;
  stop_time_edit : Z;
  color_min_slider : Z;
  color_max_slider : Z;
  color_min_slider_label : fq * string;
  color_max_slider_label : fq * string
}.

(** The attributes of a [MapWindow].  [map_file] and [time_plot_file] hold
    the documents last written to map.html and time_plot.html; [stdout] the
    messages printed by the guards (the DEBUG prints are left out). *)
Record MapWindow : Type := mkMapWindow {
  current_colormap_name : string;
  metricSelected : Metric;
  loaded_data : option DataFrame;
  filtered_data : option DataFrame;
  map_file : option Map;
  start_time : option Z;
  stop_time : option Z;
  extrema : Extrema;
  setAbsoluteMin : fq;
  setAbsoluteMax : fq;
  setAbsoluteRange : fq;
  ui : Widgets;
  time_plot_file : option Figure;
  stdout : list string
}.

Definition with_selection (m : Metric) (c : string) (s : MapWindow) : MapWindow :=
  mkMapWindow c m (loaded_data s) (filtered_data s) (map_file s) (start_time s)
    (stop_time s) (extrema s) (setAbsoluteMin s) (setAbsoluteMax s)
    (setAbsoluteRange s) (ui s) (time_plot_file s) (stdout s).

Definition with_loaded_data (d : option DataFrame) (s : MapWindow) : MapWindow :=
  mkMapWindow (current_colormap_name s) (metricSelected s) d (filtered_data s)
    (map_file s) (start_time s) (stop_time s) (extrema s) (setAbsoluteMin s)
    (setAbsoluteMax s) (setAbsoluteRange s) (ui s) (time_plot_file s) (stdout s).

Definition with_filtered_data (d : option DataFrame) (s : MapWindow) : MapWindow :=
  mkMapWindow (current_colormap_name s) (metricSelected s) (loaded_data s) d
    (map_file s) (start_time s) (stop_time s) (extrema s) (setAbsoluteMin s)
    (setAbsoluteMax s) (setAbsoluteRange s) (ui s) (time_plot_file s) (stdout s).

Definition with_map_file (m : option Map) (s : MapWindow) : MapWindow :=
  mkMapWindow (current_colormap_name s) (metricSelected s) (loaded_data s)
    (filtered_data s) m (start_time s) (stop_time s) (extrema s)
    (setAbsoluteMin s) (setAbsoluteMax s) (setAbsoluteRange s) (ui s)
    (time_plot_file s) (stdout s).

Definition with_times (t0 t1 : option Z) (s : MapWindow) : MapWindow :=
  mkMapWindow (current_colormap_name s) (metricSelected s) (loaded_data s)
    (filtered_data s) (map_file s) t0 t1 (extrema s) (setAbsoluteMin s)
    (setAbsoluteMax s) (setAbsoluteRange s) (ui s) (time_plot_file s) (stdout s).

Definition with_extrema (e : Extrema) (s : MapWindow) : MapWindow :=
  mkMapWindow (current_colormap_name s) (metricSelected s) (loaded_data s)
    (filtered_data s) (map_file s) (start_time s) (stop_time s) e
    (setAbsoluteMin s) (setAbsoluteMax s) (setAbsoluteRange s) (ui s)
    (time_plot_file s) (stdout s).

Definition with_setAbsolute (lo hi range : fq) (s : MapWindow) : MapWindow :=
  mkMapWindow (current_colormap_name s) (metricSelected s) (loaded_data s)
    (filtered_data s) (map_file s) (start_time s) (stop_time s) (extrema s)
    lo hi range (ui s) (time_plot_file s) (stdout s).

Definition with_ui (w : Widgets) (s : MapWindow) : MapWindow :=
  mkMapWindow (current_colormap_name s) (metricSelected s) (loaded_data s)
    (filtered_data s) (map_file s) (start_time s) (stop_time s) (extrema s)
    (setAbsoluteMin s) (setAbsoluteMax s) (setAbsoluteRange s) w
    (time_plot_file s) (stdout s).

Definition with_time_plot_file (f : option Figure) (s : MapWindow) : MapWindow :=
  mkMapWindow (current_colormap_name s) (metricSelected s) (loaded_data s)
    (filtered_data s) (map_file s) (start_time s) (stop_time s) (extrema s)
    (setAbsoluteMin s) (setAbsoluteMax s) (setAbsoluteRange s) (ui s) f (stdout s).

(** [print(msg)] *)
Definition print (msg : string) (s : MapWindow) : MapWindow :=
  mkMapWindow (current_colormap_name s) (metricSelected s) (loaded_data s)
    (filtered_data s) (map_file s) (start_time s) (stop_time s) (extrema s)
    (setAbsoluteMin s) (setAbsoluteMax s) (setAbsoluteRange s) (ui s)
    (time_plot_file s) (stdout s ++ [msg])%list.

Definition with_labels (lo hi : fq * string) (w : Widgets) : Widgets :=
  mkWidgets (display_field_dropdown w) (colormap_dropdown w) (start_time_edit w)
    (stop_time_edit w) (color_min_slider w) (color_max_slider w) lo hi.

Definition with_display_field (m : Metric) (w : Widgets) : Widgets :=
  mkWidgets m (colormap_dropdown w) (start_time_edit w) (stop_time_edit w)
    (color_min_slider w) (color_max_slider w) (color_min_slider_label w)
    (color_max_slider_label w).

Definition with_colormap (c : string) (w : Widgets) : Widgets :=
  mkWidgets (display_field_dropdown w) c (start_time_edit w) (stop_time_edit w)
    (color_min_slider w) (color_max_slider w) (color_min_slider_label w)
    (color_max_slider_label w).

Definition with_start_time_edit (t : Z) (w : Widgets) : Widgets :=
  mkWidgets (display_field_dropdown w) (colormap_dropdown w) t (stop_time_edit w)
    (color_min_slider w) (color_max_slider w) (color_min_slider_label w)
    (color_max_slider_label w).

Definition with_stop_time_edit (t : Z) (w : Widgets) : Widgets :=
  mkWidgets (display_field_dropdown w) (colormap_dropdown w) (start_time_edit w) t
    (color_min_slider w) (color_max_slider w) (color_min_slider_label w)
    (color_max_slider_label w).

Definition with_color_min_slider (v : Z) (w : Widgets) : Widgets :=
  mkWidgets (display_field_dropdown w) (colormap_dropdown w) (start_time_edit w)
    (stop_time_edit w) v (color_max_slider w) (color_min_slider_label w)
    (color_max_slider_label w).

Definition with_color_max_slider (v : Z) (w : Widgets) : Widgets :=
  mkWidgets (display_field_dropdown w) (colormap_dropdown w) (start_time_edit w)
    (stop_time_edit w) (color_min_slider w) v (color_min_slider_label w)
    (color_max_slider_label w).

(** The outcome of a method: it returned, or it left through an exception;
    either way with the window as it then is. *)
Inductive result : Type :=
| Ok (s : MapWindow)
| Raise (s : MapWindow).

Definition state_of (r : result) : MapWindow :=
  match r with Ok s | Raise s => s end.

Definition bind (r : result) (k : MapWindow -> result) : result :=
  match r with
  | Ok s => k s
  | Raise s => Raise s
  end.

End ColorMapper.

Notation "r >>= k" := (bind r k) (at level 50, left associativity).

Section Methods.
Context {P : Platform}.

Local Open Scope Z_scope.

(** [int(t.timestamp())]: whole seconds since the epoch, the naive
    timestamp read as UTC. *)
Definition timestamp_secs (t : Z) : Z := Z.quot t 1000000000.

(** [QDateTime.fromSecsSinceEpoch(secs)] as the wall-clock value that
    [toPyDateTime] later returns. *)
Definition fromSecsSinceEpoch (secs : Z) : Z := secs * 1000000000 + utcoffset.

(** The value of a freshly built [QDateTimeEdit]: 2000-01-01 00:00:00. *)
Definition default_datetime : Z := 946684800 * 1000000000.

(** [(Time >= start) & (Time <= stop)] *)
Definition in_window (start stop : Z) (row : Sample) : bool :=
  (start <=? Time row) && (Time row <=? stop).

Local Open Scope Q_scope.

(** The loop of [load_map] over [data.iterrows()]: one marker per row, in
    the order of the frame. *)
Fixpoint add_markers (linear_colormap : LinearColormap) (metric : Metric)
  (data : DataFrame) : option (list CircleMarker) :=
  match data with
  | [] => Some []
  | row :: rest =>
      let value := getitem metric row in
      match colormap_at linear_colormap value with
      | None => None
      | Some c =>
          match add_markers linear_colormap metric rest with
          | None => None
          | Some ms =>
              Some (mkCircleMarker (Latitude row, Longitude row) c
                      (metric, value, Time row) :: ms)
          end
      end
  end.

Definition range_error : string :=
  "Error: Minimum color value must be less than the maximum.".

Definition no_data : string :=
  "No data available for the selected time range.".

(** [MapWindow.load_map].  A NaN bound passes the comparison and makes
    branca raise while the colour bar is rendered, before anything is
    saved. *)
Definition load_map (lat lon : Q) (zoom : Z) (data : option DataFrame)
  (metric : Metric) (color_range : option (fq * fq)) (color_map : option string)
  (s : MapWindow) : result :=
  match data with
  | None => Ok (with_map_file (Some (mkMap (lat, lon) zoom [] None)) s)
  | Some d =>
      let '(metric_min, metric_max) :=
        match color_range with
        | None => (series_min (map (getitem metric) d),
                   series_max (map (getitem metric) d))
        | Some r => r
        end in
      if fge metric_min metric_max then Ok (print range_error s)
      else
        match metric_min, metric_max with
        | Some lo, Some hi =>
            let linear_colormap :=
              build_colormap (current_colormap_name s) lo hi
                (metric_name (metricSelected s) ++ " ["
                 ++ metricUnits (metricSelected s) ++ "]") in
            match add_markers linear_colormap metric d with
            | None => Raise s
            | Some ms =>
                Ok (with_map_file
                      (Some (mkMap (lat, lon) zoom ms (Some linear_colormap))) s)
            end
        | _, _ => Raise s
        end
  end.

(** [(relative / 100) * self.setAbsoluteRange + self.setAbsoluteMin] *)
Definition slider_absolute (relative : Z) (s : MapWindow) : fq :=
  fadd (fmul (Some (inject_Z relative / 100)) (setAbsoluteRange s)) (setAbsoluteMin s).

(** [MapWindow.update_display] *)
Definition update_display (s : MapWindow) : result :=
  match loaded_data s with
  | None => Ok s
  | Some loaded =>
      let s := with_selection (display_field_dropdown (ui s))
                 (colormap_dropdown (ui s)) s in
      let min_value_relative := color_min_slider (ui s) in
      let max_value_relative := color_max_slider (ui s) in
      if (min_value_relative >=? max_value_relative)%Z then Ok (print range_error s)
      else
        let slider_min_absolute := slider_absolute min_value_relative s in
        let slider_max_absolute := slider_absolute max_value_relative s in
        let s := with_ui
                   (with_labels (slider_min_absolute, metricUnits (metricSelected s))
                      (slider_max_absolute, metricUnits (metricSelected s)) (ui s)) s in
        let s := with_times (Some (start_time_edit (ui s)))
                   (Some (stop_time_edit (ui s))) s in
        let filtered :=
          filter (in_window (start_time_edit (ui s)) (stop_time_edit (ui s))) loaded in
        let s := with_filtered_data (Some filtered) s in
        match filtered with
        | [] => Ok (print no_data s)
        | _ :: _ =>
            load_map (mean (map Latitude filtered)) (mean (map Longitude filtered)) 12
              (Some filtered) (metricSelected s)
              (Some (slider_min_absolute, slider_max_absolute))
              (Some (current_colormap_name s)) s
        end
  end.

(** [start_time_edit.setDateTime(t)]: Qt emits [dateTimeChanged], which is
    connected to [update_display], when the value changes. *)
Definition setDateTime_start (t : Z) (s : MapWindow) : result :=
  if (t =? start_time_edit (ui s))%Z then Ok s
  else update_display (with_ui (with_start_time_edit t (ui s)) s).

Definition setDateTime_stop (t : Z) (s : MapWindow) : result :=
  if (t =? stop_time_edit (ui s))%Z then Ok s
  else update_display (with_ui (with_stop_time_edit t (ui s)) s).

(** The extrema of lines 248-255. *)
Definition compute_extrema (d : DataFrame) : Extrema :=
  let min_d := series_min (map DoseRate d) in
  let max_d := series_max (map DoseRate d) in
  let min_c := series_min (map CountRate d) in
  let max_c := series_max (map CountRate d) in
  {| min_time := time_min (map Time d);
     max_time := time_max (map Time d);
     min_doseRate := min_d;
     max_doseRate := max_d;
     min_countRate := min_c;
     max_countRate := max_c;
     range_doseRate := fsub max_d min_d;
     range_countRate := fsub max_c min_c |}.

(** [MapWindow.select_file], from the frame [parse_rctrk_file] returned for
    the chosen path ([None] when parsing failed).  [timestamp()] raises on
    the NaT that the extrema of an empty frame are. *)
Definition select_file (data : option DataFrame) (s : MapWindow) : result :=
  match data with
  | None => Ok s
  | Some d =>
      let loaded :=
        match loaded_data s with
        | None => d
        | Some old => (old ++ d)%list
        end in
      let s := with_loaded_data (Some loaded) s in
      let s := with_extrema (compute_extrema loaded) s in
      let e := extrema s in
      let s :=
        match metricSelected s with
        | MDoseRate =>
            with_setAbsolute (min_doseRate e) (max_doseRate e) (range_doseRate e) s
        | MCountRate =>
            with_setAbsolute (min_countRate e) (max_countRate e) (range_countRate e) s
        end in
      let s := with_ui
                 (with_labels (setAbsoluteMin s, metricUnits (metricSelected s))
                    (setAbsoluteMax s, metricUnits (metricSelected s)) (ui s)) s in
      match min_time e, max_time e with
      | Some tmin, Some tmax =>
          setDateTime_start (fromSecsSinceEpoch (timestamp_secs tmin)) s
          >>= setDateTime_stop (fromSecsSinceEpoch (timestamp_secs tmax))
          >>= update_display
      | _, _ => Raise s
      end
  end.

(** [MapWindow.clear_data]; [now] is [QDateTime.currentDateTime()]. *)
Definition clear_data (now : Z) (s : MapWindow) : result :=
  setDateTime_start now (with_loaded_data None s)
  >>= setDateTime_stop now
  >>= load_map 0 0 2 None MDoseRate None None.

(** [MapWindow.show_time_plot], with the [TimePlotWindow] it opens. *)
Definition show_time_plot (s : MapWindow) : MapWindow :=
  match loaded_data s with
  | None => s
  | Some loaded =>
      let filtered_data :=
        filter (in_window (start_time_edit (ui s)) (stop_time_edit (ui s))) loaded in
      match filtered_data with
      | [] => print no_data s
      | _ :: _ => with_time_plot_file (Some (plot_data filtered_data (metricSelected s))) s
      end
  end.

(** [MapWindow.__init__] *)
Definition init : MapWindow :=
  state_of
    (load_map 0 0 2 None MDoseRate None None
       {| current_colormap_name := "viridis";
          metricSelected := MDoseRate;
          loaded_data := None;
          filtered_data := None;
          map_file := None;
          start_time := None;
          stop_time := None;
          extrema := mkExtrema None None None None None None None None;
          setAbsoluteMin := None;
          setAbsoluteMax := None;
          setAbsoluteRange := None;
          ui := {| display_field_dropdown := MDoseRate;
                   colormap_dropdown := "viridis";
                   start_time_edit := default_datetime;
                   stop_time_edit := default_datetime;
                   color_min_slider := 0;
                   color_max_slider := 100;
                   color_min_slider_label := (Some 0, metricUnits MDoseRate);
                   color_max_slider_label := (Some 100, metricUnits MDoseRate) |};
          time_plot_file := None;
          stdout := [] |}).

(** ** User actions *)

(** What the user can do to the window.  A control tells [update_display]
    when its value changes; a slider keeps its value within 0..100. *)
Inductive action : Type :=
| SelectFile (data : option DataFrame)
| ClearData (now : Z)
| SelectMetric (m : Metric)
| SelectColormap (name : string)
| SetStartTime (t : Z)
| SetStopTime (t : Z)
| SetColorMin (v : Z)
| SetColorMax (v : Z)
| TimePlot.

Definition slider_bound (v : Z) : Z := Z.max 0 (Z.min 100 v).

Definition perform (a : action) (s : MapWindow) : result :=
  match a with
  | SelectFile data => select_file data s
  | ClearData now => clear_data now s
  | SelectMetric m =>
      if Metric_eqb m (display_field_dropdown (ui s)) then Ok s
      else update_display (with_ui (with_display_field m (ui s)) s)
  | SelectColormap name =>
      if String.eqb name (colormap_dropdown (ui s)) then Ok s
      else update_display (with_ui (with_colormap name (ui s)) s)
  | SetStartTime t => setDateTime_start t s
  | SetStopTime t => setDateTime_stop t s
  | SetColorMin v =>
      if (slider_bound v =? color_min_slider (ui s))%Z then Ok s
      else update_display (with_ui (with_color_min_slider (slider_bound v) (ui s)) s)
  | SetColorMax v =>
      if (slider_bound v =? color_max_slider (ui s))%Z then Ok s
      else update_display (with_ui (with_color_max_slider (slider_bound v) (ui s)) s)
  | TimePlot => Ok (show_time_plot s)
  end.

Fixpoint session (acts : list action) (s : MapWindow) : result :=
  match acts with
  | [] => Ok s
  | a :: rest => perform a s >>= session rest
  end.

End Methods.

(** ** A small platform to run the program on *)

(** A grey palette of 256 levels under every name, colours as the grey
    level; numbers in the [Time] column are nanoseconds and no text is a
    date; the host is on UTC. *)
Definition gray : Platform :=
  {| Color := Z;
     colormaps := fun _ => map Z.of_nat (seq 0 256);
     blend := fun p c0 c1 => Qfloor ((1 - p) * inject_Z c0 + p * inject_Z c1);
     bad := (-1)%Z;
     to_datetime := fun c => match c with Num q => Some (Qfloor q) | _ => None end;
     utcoffset := 0%Z |}.

(** Two samples, ten seconds apart: dose rate 0.1 and 0.5, count rate 10
    and 50. *)
Definition track_a : DataFrame :=
  [ mkRow 0%Z (45 # 1) (9 # 1) (1 # 10) (10 # 1);
    mkRow 10000000000%Z (46 # 1) (10 # 1) (5 # 10) (50 # 1) ].

(** One sample, five seconds into [track_a]. *)
Definition track_b : DataFrame :=
  [ mkRow 5000000000%Z (47 # 1) (11 # 1) (3 # 10) (30 # 1) ].

(** ** Specification vocabulary *)

(** [l1] is [l2] with some entries left out, the others in their order. *)
Inductive subseq {A : Type} : list A -> list A -> Prop :=
| subseq_nil : subseq [] []
| subseq_skip x l1 l2 : subseq l1 l2 -> subseq l1 (x :: l2)
| subseq_keep x l1 l2 : subseq l1 l2 -> subseq (x :: l1) (x :: l2).

(** [m] is the least entry of [l] for [le]; nothing when [l] is empty. *)
Definition extremum {A : Type} (le : A -> A -> Prop) (l : list A) (m : option A) : Prop :=
  match m with
  | None => l = []
  | Some x => In x l /\ forall y, In y l -> le x y
  end.

(** The rows of [loaded] inside the closed window, as the largest
    subsequence made of such rows. *)
Definition filtered_view (start stop : Z) (loaded view : DataFrame) : Prop :=
  subseq view loaded
  /\ (forall row, In row view <-> In row loaded /\ (start <= Time row <= stop)%Z)
  /\ (forall l, subseq l loaded ->
                (forall row, In row l -> (start <= Time row <= stop)%Z) ->
                subseq l view).


(** The attributes that hold the selection: metric, palette, time window. *)
Definition selection {P : Platform} (s : MapWindow) : Metric * string * option Z * option Z :=
  (metricSelected s, current_colormap_name s, start_time s, stop_time s).

(** The extrema of the metric that is selected. *)
Definition metric_min {P : Platform} (s : MapWindow) : fq :=
  match metricSelected s with
  | MDoseRate => min_doseRate (extrema s)
  | MCountRate => min_countRate (extrema s)
  end.

Definition metric_max {P : Platform} (s : MapWindow) : fq :=
  match metricSelected s with
  | MDoseRate => max_doseRate (extrema s)
  | MCountRate => max_countRate (extrema s)
  end.

(** [relative / 100 * (metricMax - metricMin) + metricMin] *)
Definition affine (relative : Z) (lo hi : fq) : fq :=
  fadd (fmul (Some (inject_Z relative / 100)) (fsub hi lo)) lo.

Section Vocabulary.
Context {P : Platform}.

(** What [update_display] reads and never writes. *)
Definition inputs_kept (s s' : MapWindow) : Prop :=
  loaded_data s' = loaded_data s
  /\ extrema s' = extrema s
  /\ setAbsoluteMin s' = setAbsoluteMin s
  /\ setAbsoluteMax s' = setAbsoluteMax s
  /\ setAbsoluteRange s' = setAbsoluteRange s
  /\ display_field_dropdown (ui s') = display_field_dropdown (ui s)
  /\ colormap_dropdown (ui s') = colormap_dropdown (ui s)
  /\ start_time_edit (ui s') = start_time_edit (ui s)
  /\ stop_time_edit (ui s') = stop_time_edit (ui s)
  /\ color_min_slider (ui s') = color_min_slider (ui s)
  /\ color_max_slider (ui s') = color_max_slider (ui s)
  /\ time_plot_file s' = time_plot_file s.

(** What no method but [select_file] and [clear_data] writes. *)
Definition data_kept (s s' : MapWindow) : Prop :=
  loaded_data s' = loaded_data s
  /\ extrema s' = extrema s
  /\ setAbsoluteMin s' = setAbsoluteMin s
  /\ setAbsoluteMax s' = setAbsoluteMax s
  /\ setAbsoluteRange s' = setAbsoluteRange s
  /\ display_field_dropdown (ui s') = display_field_dropdown (ui s)
  /\ colormap_dropdown (ui s') = colormap_dropdown (ui s)
  /\ color_min_slider (ui s') = color_min_slider (ui s)
  /\ color_max_slider (ui s') = color_max_slider (ui s).

(** [load_map] writes the map document and the messages, nothing else. *)
Definition rendered_only (s s' : MapWindow) : Prop :=
  current_colormap_name s' = current_colormap_name s
  /\ metricSelected s' = metricSelected s
  /\ loaded_data s' = loaded_data s
  /\ filtered_data s' = filtered_data s
  /\ start_time s' = start_time s
  /\ stop_time s' = stop_time s
  /\ extrema s' = extrema s
  /\ setAbsoluteMin s' = setAbsoluteMin s
  /\ setAbsoluteMax s' = setAbsoluteMax s
  /\ setAbsoluteRange s' = setAbsoluteRange s
  /\ ui s' = ui s
  /\ time_plot_file s' = time_plot_file s.

(** The colour [load_map] gives a value: a function of the range, the
    palette and the value. *)
Definition colorOf (name : string) (lo hi value : Q) : option Color :=
  colormap_at (build_colormap name lo hi "") value.

(** The value the [k]-th stop of the colour scale sits at. *)
Definition stop_value (lo hi : Q) (k : nat) : Q :=
  lo + (hi - lo) * inject_Z (Z.of_nat k) / inject_Z (Z.of_nat 256 - 1).

End Vocabulary.

(** ** The claims as the specification words them *)

Section Worded.
Context {P : Platform}.

(** What the documents show: the range and the caption of the colour bar
    on the map, the number of markers on it, the times along the chart. *)
Definition legend_shown (s : MapWindow) : option (Q * Q * string) :=
  match map_file s with
  | Some m =>
      match legend m with
      | Some cm => Some (vmin cm, vmax cm, caption cm)
      | None => None
      end
  | None => None
  end.


Definition trace_times (s : MapWindow) : option (list Z) :=
  option_map (fun fig => map fst (trace fig)) (time_plot_file s).

(** A time window or a relative value window that the specification calls
    invalid. *)
Definition invalid_filter (s : MapWindow) : Prop :=
  (start_time_edit (ui s) > stop_time_edit (ui s))%Z
  \/ (color_min_slider (ui s) >= color_max_slider (ui s))%Z.

(** C2 as worded: the update changes neither the selection nor the map. *)
Definition update_rejected (s : MapWindow) : Prop :=
  selection (state_of (update_display s)) = selection s
  /\ map_file (state_of (update_display s)) = map_file s.

(** No loaded row is inside the time window. *)
Definition empty_view (s : MapWindow) (loaded : DataFrame) : Prop :=
  forall row, In row loaded ->
              ~ (start_time_edit (ui s) <= Time row <= stop_time_edit (ui s))%Z.


(** C9 as worded: the chart goes through the samples in time order. *)
Definition chart_is_chronological (s : MapWindow) : Prop :=
  forall times, trace_times (show_time_plot s) = Some times ->
                StronglySorted Z.le times.

(** C6 as worded, for the dataset and the relative value window. *)
Definition cleared_to_defaults (now : Z) (s : MapWindow) : Prop :=
  let s' := state_of (clear_data now s) in
  loaded_data s' = None
  /\ color_min_slider (ui s') = 0%Z
  /\ color_max_slider (ui s') = 100%Z.

(** C1 as worded: the range of the colour bar is the relative window
    mapped onto the extrema of the selected metric. *)
Definition window_follows_metric (s : MapWindow) : Prop :=
  forall shown_lo shown_hi cap,
    legend_shown s = Some (shown_lo, shown_hi, cap) ->
    exists lo hi,
      affine (color_min_slider (ui s)) (metric_min s) (metric_max s) = Some lo
      /\ affine (color_max_slider (ui s)) (metric_min s) (metric_max s) = Some hi
      /\ shown_lo == lo /\ shown_hi == hi.

End Worded.

(** ** The parser's contract *)

Module ParserSpec.
Import Parser.










End ParserSpec.

(** ** Scenarios *)

(** [track_a] loaded, the lower slider pushed to 100, and CountRate just
    picked in the metric dropdown: the window as [update_display] finds
    it. *)
Definition metric_picked_with_bad_sliders : MapWindow :=
  let s := state_of (session (P := gray) [SelectFile (Some track_a); SetColorMin 100] init) in
  with_ui (with_display_field MCountRate (ui s)) s.


(** [track_a] loaded, then [track_b]. *)
Definition two_tracks_loaded : MapWindow :=
  state_of (session (P := gray) [SelectFile (Some track_a); SelectFile (Some track_b)] init).

(** [track_a] loaded and the sliders moved to 30 and 70. *)
Definition sliders_narrowed : MapWindow :=
  state_of (session (P := gray)
              [SelectFile (Some track_a); SetColorMin 30; SetColorMax 70] init).

(** The same, and CountRate then selected. *)
Definition metric_switched : MapWindow :=
  state_of (session (P := gray)
              [SelectFile (Some track_a); SetColorMin 30; SetColorMax 70;
               SelectMetric MCountRate] init).

(** ** The first viewer *)

(** RadiaCodeMapViewer.py: one metric, no filters.  [Time] stays the text
    the file holds; the frame is replaced at every load. *)
Module V1.

Section WithPlatform.
Context {P : Platform}.

Definition DataFrame := list (Row cell Q).

(** The popup text is kept as the dose rate, the count rate and the time
    it is formatted from. *)
Record CircleMarker : Type := mkCircleMarker {
  location : Q * Q;
  color : Color;
  popup : Q * Q * cell
}.

Record Map : Type := mkMap {
  map_location : Q * Q;
  zoom_start : Z;
  markers : list CircleMarker;
  legend : option LinearColormap
}.

Record MapWindow : Type := mkMapWindow {
  current_colormap_name : string;
  loaded_data : option DataFrame;
  map_file : option Map
}.

Inductive result : Type :=
| Ok (s : MapWindow)
| Raise (s : MapWindow).

Definition state_of (r : result) : MapWindow :=
  match r with Ok s | Raise s => s end.

(** [MapWindow.load_map].  The extrema of an empty frame are NaN, on which
    folium and branca raise before anything is saved.  When all dose rates
    are equal matplotlib normalises every value to 0, which is what the
    division by zero of [Q] gives. *)
Definition load_map (lat lon : Q) (zoom : Z) (data : option DataFrame)
  (s : MapWindow) : result :=
  match data with
  | None =>
      Ok (mkMapWindow (current_colormap_name s) (loaded_data s)
            (Some (mkMap (lat, lon) zoom [] None)))
  | Some d =>
      match series_min (map DoseRate d), series_max (map DoseRate d) with
      | Some min_dose, Some max_dose =>
          let colormap := colormap_call (colormaps (current_colormap_name s)) in
          let branca_colormap :=
            new_LinearColormap
              (map (fun value => colormap (Normalize min_dose max_dose value))
                   (linspace min_dose max_dose 256))
              min_dose max_dose "Dose Rate [µSv/h]" in
          Ok (mkMapWindow (current_colormap_name s) (loaded_data s)
                (Some (mkMap (lat, lon) zoom
                         (map (fun row =>
                                 mkCircleMarker (Latitude row, Longitude row)
                                   (colormap (Normalize min_dose max_dose (DoseRate row)))
                                   (DoseRate row, CountRate row, Time row)) d)
                         (Some branca_colormap))))
      | _, _ => Raise s
      end
  end.

(** [MapWindow.select_file], from the frame [parse_rctrk_file] returned. *)
Definition select_file (data : option DataFrame) (s : MapWindow) : result :=
  match data with
  | None => Ok s
  | Some d =>
      load_map (mean (map Latitude d)) (mean (map Longitude d)) 15 (Some d)
        (mkMapWindow (current_colormap_name s) (Some d) (map_file s))
  end.

(** [MapWindow.update_colormap] *)
Definition update_colormap (colormap_name : string) (s : MapWindow) : result :=
  let s := mkMapWindow colormap_name (loaded_data s) (map_file s) in
  match loaded_data s with
  | None => Ok s
  | Some d =>
      load_map (mean (map Latitude d)) (mean (map Longitude d)) 15 (Some d) s
  end.

(** [MapWindow.__init__] *)
Definition init : MapWindow :=
  state_of (load_map 0 0 2 None (mkMapWindow "viridis" None None)).

End WithPlatform.

End V1.

(** ** Vocabulary for whole sessions *)

Section SessionVocabulary.
Context {P : Platform}.

(** The frame a load leaves in the window. *)
Definition accumulated (s : MapWindow) (d : DataFrame) : DataFrame :=
  match loaded_data s with
  | None => d
  | Some old => (old ++ d)%list
  end.

(** The window can be redrawn: it holds no data, or the bounds the sliders
    are mapped onto are numbers. *)
Definition ready (s : MapWindow) : Prop :=
  loaded_data s = None
  \/ (setAbsoluteMin s <> None /\ setAbsoluteRange s <> None).

(** No file that is loaded is without rows. *)
Definition loads_rows (acts : list action) : Prop :=
  forall d, In (SelectFile (Some d)) acts -> d <> [].

(** An action on a control or on the time plot button. *)
Definition on_control (a : action) : Prop :=
  match a with
  | SelectFile _ | ClearData _ => False
  | _ => True
  end.

(** The extrema kept are those of the data held, and the sliders are on
    their scale. *)
Definition consistent (s : MapWindow) : Prop :=
  (forall loaded, loaded_data s = Some loaded -> extrema s = compute_extrema loaded)
  /\ (0 <= color_min_slider (ui s) <= 100)%Z
  /\ (0 <= color_max_slider (ui s) <= 100)%Z.

(** The extrema, as stored at a load, of the metric then selected. *)
Definition stored_min (m : Metric) (e : Extrema) : fq :=
  match m with MDoseRate => min_doseRate e | MCountRate => min_countRate e end.

Definition stored_max (m : Metric) (e : Extrema) : fq :=
  match m with MDoseRate => max_doseRate e | MCountRate => max_countRate e end.

End SessionVocabulary.

(** One sample: every metric is constant. *)
Definition track_c : DataFrame :=
  [ mkRow 0%Z (45 # 1) (9 # 1) (1 # 10) (10 # 1) ].

(** ** General facts *)

Lemma filter_subseq {A : Type} (f : A -> bool) (l : list A) :
  subseq (filter f l) l.
Proof.
  induction l as [|x l IH]; simpl.
  - constructor.
  - destruct (f x); now constructor.
Qed.

Lemma subseq_filter_max {A : Type} (f : A -> bool) (l l2 : list A) :
  subseq l l2 -> (forall x, In x l -> f x = true) -> subseq l (filter f l2).
Proof.
  induction 1 as [|x l1 l2 H IH|x l1 l2 H IH]; intros Hall; simpl.
  - constructor.
  - destruct (f x); [apply subseq_skip|]; now apply IH.
  - rewrite (Hall x (or_introl eq_refl)).
    apply subseq_keep, IH. intros y Hy. apply Hall. now right.
Qed.

Lemma in_window_spec (start stop : Z) (row : Sample) :
  in_window start stop row = true <-> (start <= Time row <= stop)%Z.
Proof.
  unfold in_window. rewrite andb_true_iff, !Z.leb_le. tauto.
Qed.

Lemma filter_is_filtered_view (start stop : Z) (loaded : DataFrame) :
  filtered_view start stop loaded (filter (in_window start stop) loaded).
Proof.
  split; [apply filter_subseq|split].
  - intros row. rewrite filter_In, in_window_spec. reflexivity.
  - intros l Hs Hall. apply subseq_filter_max; [assumption|].
    intros x Hx. apply in_window_spec. now apply Hall.
Qed.

Lemma series_ext_extremum {A : Type} (leb : A -> A -> bool) (le : A -> A -> Prop) :
  (forall x y, leb x y = true -> le x y) ->
  (forall x y, leb x y = false -> le y x) ->
  (forall x, le x x) ->
  (forall x y z, le x y -> le y z -> le x z) ->
  forall l, extremum le l (series_ext leb l).
Proof.
  intros Ht Hf Hrefl Htrans l.
  induction l as [|x r IH]; simpl; [reflexivity|].
  destruct (series_ext leb r) as [m|]; simpl in *.
  - destruct IH as [Hin Hle].
    destruct (leb x m) eqn:E.
    + split; [now left|]. intros y [<-|Hy]; [apply Hrefl|].
      eapply Htrans; [apply Ht, E|]. now apply Hle.
    + split; [now right|]. intros y [<-|Hy]; [now apply Hf|]. now apply Hle.
  - subst r. split; [now left|]. intros y [<-|[]]. apply Hrefl.
Qed.

Lemma series_min_extremum (l : list Q) : extremum Qle l (series_min l).
Proof.
  apply series_ext_extremum.
  - intros x y. apply Qle_bool_iff.
  - intros x y E. destruct (Qlt_le_dec x y) as [Hlt|Hle]; [|assumption].
    apply Qlt_le_weak in Hlt. apply Qle_bool_iff in Hlt. congruence.
  - apply Qle_refl.
  - apply Qle_trans.
Qed.

Lemma series_max_extremum (l : list Q) : extremum (fun x y => y <= x) l (series_max l).
Proof.
  apply (series_ext_extremum (fun x y => Qle_bool y x)).
  - intros x y. apply Qle_bool_iff.
  - intros x y E. destruct (Qlt_le_dec y x) as [Hlt|Hle]; [|assumption].
    apply Qlt_le_weak in Hlt. apply Qle_bool_iff in Hlt. congruence.
  - apply Qle_refl.
  - intros x y z H1 H2. eapply Qle_trans; eassumption.
Qed.

Lemma time_min_extremum (l : list Z) : extremum Z.le l (time_min l).
Proof.
  apply series_ext_extremum; intros.
  - now apply Z.leb_le.
  - apply Z.leb_gt in H. lia.
  - lia.
  - lia.
Qed.

Lemma time_max_extremum (l : list Z) : extremum Z.ge l (time_max l).
Proof.
  apply series_ext_extremum; intros.
  - apply Z.geb_le in H. lia.
  - rewrite Z.geb_leb in H. apply Z.leb_gt in H. lia.
  - lia.
  - lia.
Qed.

Ltac break_match :=
  match goal with
  | |- context [match ?x with _ => _ end] => destruct x eqn:?
  end.

Section Aggregator.
Context {P : Platform}.

Lemma inputs_kept_refl (s : MapWindow) : inputs_kept s s.
Proof. unfold inputs_kept. tauto. Qed.

Lemma inputs_kept_trans (s1 s2 s3 : MapWindow) :
  inputs_kept s1 s2 -> inputs_kept s2 s3 -> inputs_kept s1 s3.
Proof. unfold inputs_kept. intuition congruence. Qed.

Lemma load_map_keeps lat lon zoom data metric color_range color_map (s : MapWindow) :
  inputs_kept s (state_of (load_map lat lon zoom data metric color_range color_map s)).
Proof.
  unfold load_map.
  repeat break_match; unfold inputs_kept; simpl; tauto.
Qed.

Lemma update_display_keeps (s : MapWindow) :
  inputs_kept s (state_of (update_display s)).
Proof.
  unfold update_display.
  destruct (loaded_data s) eqn:E; [|apply inputs_kept_refl].
  destruct (_ >=? _)%Z; [unfold inputs_kept; simpl; tauto|].
  destruct (filter _ _); [unfold inputs_kept; simpl; tauto|].
  eapply inputs_kept_trans; [|apply load_map_keeps].
  unfold inputs_kept; simpl; tauto.
Qed.

End Aggregator.

Section ColorFacts.
Context {P : Platform}.

Lemma nth_map_seq {A : Type} (g : nat -> A) (n k : nat) (d : A) :
  (k < n)%nat -> nth k (map g (seq 0 n)) d = g k.
Proof.
  intros H.
  rewrite (nth_indep _ d (g 0%nat)) by (rewrite length_map, length_seq; lia).
  rewrite map_nth. now rewrite seq_nth.
Qed.

Lemma last_map_seq {A : Type} (g : nat -> A) (n : nat) (d : A) :
  last (map g (seq 0 (S n))) d = g n.
Proof. rewrite seq_S, map_app. simpl. apply last_last. Qed.

Lemma nth_pred_last {A : Type} (l : list A) (d : A) :
  nth (List.length l - 1) l d = last l d.
Proof.
  induction l as [|x [|y l] IH]; try reflexivity.
  replace (List.length (x :: y :: l) - 1)%nat with (S (List.length (y :: l) - 1))
    by (simpl; lia).
  exact IH.
Qed.

Lemma filter_length_lt {A : Type} (f : A -> bool) (l : list A) (a : A) :
  In a l -> f a = false -> (List.length (filter f l) < List.length l)%nat.
Proof.
  induction l as [|x l IH]; intros Hin Hf; [contradiction|].
  simpl. pose proof (filter_length_le f l) as Hle.
  destruct Hin as [->|Hin].
  - rewrite Hf. lia.
  - specialize (IH Hin Hf). destruct (f x); simpl; lia.
Qed.

Lemma linspace_length (lo hi : Q) : List.length (linspace lo hi 256) = 256%nat.
Proof.
  change (linspace lo hi 256) with
    (map (fun i => inject_Z (Z.of_nat i) * ((hi - lo) / inject_Z (Z.of_nat 255)) + lo)
         (seq 0 255) ++ [hi])%list.
  now rewrite length_app, length_map, length_seq.
Qed.

Lemma build_colormap_index name lo hi cap :
  index (build_colormap name lo hi cap) = map (stop_value lo hi) (seq 0 256).
Proof.
  unfold build_colormap, new_LinearColormap.
  cbv beta delta [index]. cbv iota beta.
  rewrite length_map, linspace_length. reflexivity.
Qed.

Lemma stop_value_mono (lo hi : Q) (j k : nat) :
  lo < hi -> (j <= k)%nat -> stop_value lo hi j <= stop_value lo hi k.
Proof.
  intros Hlt Hjk. unfold stop_value.
  assert (H : inject_Z (Z.of_nat j) <= inject_Z (Z.of_nat k))
    by (rewrite <- Zle_Qle; lia).
  change (inject_Z (Z.of_nat 256 - 1)) with 255.
  assert ((hi - lo) * inject_Z (Z.of_nat j) <= (hi - lo) * inject_Z (Z.of_nat k)).
  { rewrite !(Qmult_comm (hi - lo)). apply Qmult_le_compat_r; [assumption|lra]. }
  set (a := (hi - lo) * inject_Z (Z.of_nat j)) in *.
  set (b := (hi - lo) * inject_Z (Z.of_nat k)) in *.
  clearbody a b.
  assert (E : forall x, x / 255 == x * (1 # 255)) by (intros; field).
  rewrite !E. lra.
Qed.

Lemma stop_value_first (lo hi : Q) : stop_value lo hi 0 == lo.
Proof. unfold stop_value. simpl. field. Qed.

Lemma stop_value_last (lo hi : Q) : stop_value lo hi 255 == hi.
Proof. unfold stop_value. simpl. field. Qed.

(** With [lo < hi] the stops are in order, and branca finds a colour for
    every value. *)
Lemma colormap_at_total name lo hi cap (x : Q) :
  lo < hi -> exists c, colormap_at (build_colormap name lo hi cap) x = Some c.
Proof.
  intros Hlt. unfold colormap_at.
  destruct (Qle_bool x _); [eauto|].
  destruct (Qle_bool _ x) eqn:Elast; [eauto|].
  rewrite build_colormap_index in *.
  set (i := List.length (filter (fun u => Qlt_bool u x) (map (stop_value lo hi) (seq 0 256)))).
  assert (Hi : (i < 256)%nat).
  { replace 256%nat with (List.length (map (stop_value lo hi) (seq 0 256)))
      by now rewrite length_map, length_seq.
    apply filter_length_lt with (a := stop_value lo hi 255).
    - apply in_map, in_seq. lia.
    - rewrite (last_map_seq (stop_value lo hi) 255) in Elast.
      unfold Qlt_bool.
      destruct (Qle_bool x (stop_value lo hi 255)) eqn:E; [reflexivity|].
      exfalso.
      destruct (Qlt_le_dec (stop_value lo hi 255) x) as [H|H].
      + apply Qlt_le_weak, Qle_bool_iff in H. congruence.
      + apply Qle_bool_iff in H. congruence. }
  rewrite !nth_map_seq by lia.
  pose proof (stop_value_mono lo hi (i - 1) i Hlt ltac:(lia)) as Hmono.
  unfold Qlt_bool.
  destruct (Qle_bool (stop_value lo hi i) (stop_value lo hi (i - 1))) eqn:E; simpl.
  - apply Qle_bool_iff in E.
    rewrite (Qeq_eq_bool (stop_value lo hi (i - 1)) (stop_value lo hi i)); [eauto|].
    now apply Qle_antisym.
  - eauto.
Qed.

Lemma add_markers_total name lo hi cap metric (d : DataFrame) :
  lo < hi ->
  exists ms, add_markers (build_colormap name lo hi cap) metric d = Some ms
             /\ Forall2 (fun row m =>
                           location m = (Latitude row, Longitude row)
                           /\ popup m = (metric, getitem metric row, Time row)
                           /\ colormap_at (build_colormap name lo hi cap)
                                (getitem metric row) = Some (color m)) d ms.
Proof.
  intros Hlt. induction d as [|row d [ms [E F]]]; simpl.
  - eauto.
  - destruct (colormap_at_total name lo hi cap (getitem metric row) Hlt) as [c Ec].
    rewrite Ec, E. eexists. split; [reflexivity|].
    constructor; [simpl; auto|assumption].
Qed.

End ColorFacts.

Section ColorClaims.
Context {P : Platform}.

Lemma colormap_call_zero (lut : list Color) (x : Q) :
  x == 0 -> colormap_call lut x = nth 0 lut bad.
Proof.
  intros Hx. unfold colormap_call.
  set (N := List.length lut).
  assert (Hxa : x * inject_Z (Z.of_nat N) == 0) by (rewrite Hx; ring).
  assert (HN : inject_Z (Z.of_nat N) <= 0 -> N = 0%nat).
  { intros H. change 0 with (inject_Z 0) in H. rewrite <- Zle_Qle in H. lia. }
  destruct (Qeq_bool _ _) eqn:E1.
  - apply Qeq_bool_iff in E1. rewrite HN; [reflexivity|]. rewrite <- E1, Hxa. lra.
  - unfold Qlt_bool.
    rewrite (proj2 (Qle_bool_iff 0 (x * inject_Z (Z.of_nat N)))) by (rewrite Hxa; lra).
    cbn [negb].
    destruct (Qle_bool _ _) eqn:E2.
    + apply Qle_bool_iff in E2. rewrite HN; [reflexivity|]. rewrite <- Hxa. exact E2.
    + now rewrite (Qfloor_comp _ 0 Hxa).
Qed.

Lemma colormap_call_one (lut : list Color) (x : Q) :
  x == 1 -> colormap_call lut x = last lut bad.
Proof.
  intros Hx. unfold colormap_call.
  rewrite (Qeq_eq_bool (x * _) _) by (rewrite Hx; ring).
  apply nth_pred_last.
Qed.

Lemma colors_first name lo hi cap :
  nth 0 (colors (build_colormap name lo hi cap)) bad
  = colormap_call (colormaps name)
      (Normalize lo hi (inject_Z (Z.of_nat 0) * ((hi - lo) / inject_Z (Z.of_nat 255)) + lo)).
Proof. reflexivity. Qed.

Lemma colors_last name lo hi cap :
  last (colors (build_colormap name lo hi cap)) bad
  = colormap_call (colormaps name) (Normalize lo hi hi).
Proof.
  unfold build_colormap, new_LinearColormap. cbv beta delta [colors]. cbv iota beta.
  change (linspace lo hi 256) with
    (map (fun i => inject_Z (Z.of_nat i) * ((hi - lo) / inject_Z (Z.of_nat 255)) + lo)
         (seq 0 255) ++ [hi])%list.
  rewrite map_app. apply last_last.
Qed.

Lemma index_first name lo hi cap :
  nth 0 (index (build_colormap name lo hi cap)) 0 = stop_value lo hi 0.
Proof. rewrite build_colormap_index. apply nth_map_seq. lia. Qed.

Lemma index_last name lo hi cap :
  last (index (build_colormap name lo hi cap)) 0 = stop_value lo hi 255.
Proof. rewrite build_colormap_index. apply (last_map_seq (stop_value lo hi) 255). Qed.

Lemma colormap_at_low name lo hi cap (v : Q) :
  v <= lo ->
  colormap_at (build_colormap name lo hi cap) v
  = Some (nth 0 (colors (build_colormap name lo hi cap)) bad).
Proof.
  intros Hv. unfold colormap_at. rewrite index_first.
  rewrite (proj2 (Qle_bool_iff v (stop_value lo hi 0))); [reflexivity|].
  now rewrite stop_value_first.
Qed.

Lemma colormap_at_high name lo hi cap (v : Q) :
  lo < hi -> hi <= v ->
  colormap_at (build_colormap name lo hi cap) v
  = Some (last (colors (build_colormap name lo hi cap)) bad).
Proof.
  intros Hlt Hv. unfold colormap_at. rewrite index_first, index_last.
  destruct (Qle_bool v (stop_value lo hi 0)) eqn:E.
  - apply Qle_bool_iff in E. rewrite stop_value_first in E. lra.
  - rewrite (proj2 (Qle_bool_iff (stop_value lo hi 255) v)); [reflexivity|].
    now rewrite stop_value_last.
Qed.

(** C7.  Over a range [lo < hi], the normalisation is linear onto [0, 1];
    the colour of [lo] is the first colour of the palette and the colour of
    [hi] its last; a value at or below [lo] has the colour of [lo] and a
    value at or above [hi] the colour of [hi]. *)
Theorem colorOf_clamps_to_palette_ends (name : string) (lo hi : Q) (cap : string) :
  lo < hi ->
  let colorOf := colormap_at (build_colormap name lo hi cap) in
  Normalize lo hi lo == 0
  /\ Normalize lo hi hi == 1
  /\ (forall v, lo <= v <= hi -> 0 <= Normalize lo hi v <= 1)
  /\ colorOf lo = Some (nth 0 (colormaps name) bad)
  /\ colorOf hi = Some (last (colormaps name) bad)
  /\ (forall v, v <= lo -> colorOf v = colorOf lo)
  /\ (forall v, hi <= v -> colorOf v = colorOf hi).
Proof.
  intros Hlt colorOf. subst colorOf.
  assert (N0 : Normalize lo hi lo == 0) by (unfold Normalize; field; lra).
  assert (N1 : Normalize lo hi hi == 1) by (unfold Normalize; field; lra).
  repeat match goal with |- _ /\ _ => split end; try assumption.
  - intros v [Hl Hh]. unfold Normalize.
    assert (Hd : 0 < hi - lo) by lra.
    split.
    + apply Qle_shift_div_l; [assumption|lra].
    + apply Qle_shift_div_r; [assumption|lra].
  - rewrite colormap_at_low by lra. f_equal.
    rewrite colors_first. apply colormap_call_zero.
    unfold Normalize. simpl inject_Z. field. lra.
  - rewrite colormap_at_high by lra. f_equal.
    rewrite colors_last. now apply colormap_call_one.
  - intros v Hv. rewrite !colormap_at_low by lra. reflexivity.
  - intros v Hv. rewrite !colormap_at_high by lra. reflexivity.
Qed.

End ColorClaims.

Section DatasetClaims.
Context {P : Platform}.

Lemma data_kept_refl (s : MapWindow) : data_kept s s.
Proof. unfold data_kept. tauto. Qed.

Lemma data_kept_trans (s1 s2 s3 : MapWindow) :
  data_kept s1 s2 -> data_kept s2 s3 -> data_kept s1 s3.
Proof. unfold data_kept. intuition congruence. Qed.

Lemma inputs_kept_data (s s' : MapWindow) : inputs_kept s s' -> data_kept s s'.
Proof. unfold inputs_kept, data_kept. tauto. Qed.

Lemma setDateTime_start_keeps (t : Z) (s : MapWindow) :
  data_kept s (state_of (setDateTime_start t s)).
Proof.
  unfold setDateTime_start. destruct (_ =? _)%Z; [apply data_kept_refl|].
  eapply data_kept_trans; [|apply inputs_kept_data, update_display_keeps].
  unfold data_kept; simpl; tauto.
Qed.

Lemma setDateTime_stop_keeps (t : Z) (s : MapWindow) :
  data_kept s (state_of (setDateTime_stop t s)).
Proof.
  unfold setDateTime_stop. destruct (_ =? _)%Z; [apply data_kept_refl|].
  eapply data_kept_trans; [|apply inputs_kept_data, update_display_keeps].
  unfold data_kept; simpl; tauto.
Qed.

Lemma bind_data_kept (r : result) (k : MapWindow -> result) (s : MapWindow) :
  data_kept s (state_of r) ->
  (forall s1, data_kept s1 (state_of (k s1))) ->
  data_kept s (state_of (r >>= k)).
Proof.
  intros Hr Hk. destruct r as [s1|s1]; simpl in *; [|assumption].
  eapply data_kept_trans; [eassumption|apply Hk].
Qed.

(** A range that is a number on both ends is rendered, or refused with a
    message; nothing is raised. *)
Lemma load_map_returns lat lon zoom data metric (lo hi : Q) color_map (s : MapWindow) :
  exists s', load_map lat lon zoom data metric (Some (Some lo, Some hi)) color_map s = Ok s'.
Proof.
  unfold load_map. destruct data as [d|]; [|eauto].
  destruct (fge (Some lo) (Some hi)) eqn:E; [eauto|].
  assert (Hlt : lo < hi).
  { simpl in E. destruct (Qlt_le_dec lo hi) as [H|H]; [assumption|].
    apply Qle_bool_iff in H. congruence. }
  destruct (add_markers_total (current_colormap_name s) lo hi
              (metric_name (metricSelected s) ++ " [" ++ metricUnits (metricSelected s) ++ "]")
              metric d Hlt) as [ms [-> _]].
  eauto.
Qed.

Lemma update_display_returns (s : MapWindow) :
  setAbsoluteMin s <> None -> setAbsoluteRange s <> None ->
  exists s', update_display s = Ok s'.
Proof.
  intros Hmin Hrange. unfold update_display.
  destruct (loaded_data s); [|eauto].
  destruct (_ >=? _)%Z; [eauto|].
  destruct (filter _ _); [eauto|].
  unfold slider_absolute. simpl setAbsoluteRange. simpl setAbsoluteMin.
  destruct (setAbsoluteMin s); [|congruence].
  destruct (setAbsoluteRange s); [|congruence].
  simpl fmul. simpl fadd. apply load_map_returns.
Qed.

Lemma series_ext_some {A : Type} (leb : A -> A -> bool) (l : list A) :
  l <> [] -> series_ext leb l <> None.
Proof.
  destruct l as [|x r]; [congruence|]. intros _. simpl.
  destruct (series_ext leb r); discriminate.
Qed.

(** C3.  Loading a parsed file into a window that already holds samples
    puts the new samples after the old ones, so that the count is the sum
    of the two counts, and every extremum kept by the window is the one of
    the whole accumulated sequence.  The load returns unless that sequence
    is empty. *)
Theorem load_appends_and_recomputes (s : MapWindow) (old new : DataFrame) :
  loaded_data s = Some old ->
  let s' := state_of (select_file (Some new) s) in
  exists acc,
    loaded_data s' = Some acc
    /\ acc = (old ++ new)%list
    /\ List.length acc = (List.length old + List.length new)%nat
    /\ extremum Z.le (map Time acc) (min_time (extrema s'))
    /\ extremum Z.ge (map Time acc) (max_time (extrema s'))
    /\ extremum Qle (map DoseRate acc) (min_doseRate (extrema s'))
    /\ extremum (fun x y => y <= x) (map DoseRate acc) (max_doseRate (extrema s'))
    /\ extremum Qle (map CountRate acc) (min_countRate (extrema s'))
    /\ extremum (fun x y => y <= x) (map CountRate acc) (max_countRate (extrema s'))
    /\ (acc <> [] -> exists s1, select_file (Some new) s = Ok s1).
Proof.
  intros Hold s'. exists (old ++ new)%list.
  assert (Hs' : loaded_data s' = Some (old ++ new)%list
                /\ extrema s' = compute_extrema (old ++ new)%list).
  { subst s'. unfold select_file. rewrite Hold.
    match goal with
    | |- context [match ?a with Some _ => _ | None => _ end] =>
        destruct a as [tmin|] eqn:Emin
    end.
    2: { simpl. destruct (metricSelected _); simpl; auto. }
    match goal with
    | |- context [match ?a with Some _ => _ | None => _ end] =>
        destruct a as [tmax|] eqn:Emax
    end.
    2: { simpl. destruct (metricSelected _); simpl; auto. }
    match goal with
    | |- context [(setDateTime_start ?t ?s0 >>= ?k1) >>= ?k2] =>
        assert (K : data_kept s0 (state_of ((setDateTime_start t s0 >>= k1) >>= k2)))
    end.
    { apply bind_data_kept; [apply bind_data_kept|].
      - apply setDateTime_start_keeps.
      - intros. apply setDateTime_stop_keeps.
      - intros. apply inputs_kept_data, update_display_keeps. }
    destruct K as (K1 & K2 & _). rewrite K1, K2.
    simpl. destruct (metricSelected _); simpl; auto. }
  destruct Hs' as [Hl He].
  split; [assumption|]. split; [reflexivity|]. split; [apply length_app|].
  rewrite He. simpl.
  split; [apply time_min_extremum|]. split; [apply time_max_extremum|].
  split; [apply series_min_extremum|]. split; [apply series_max_extremum|].
  split; [apply series_min_extremum|]. split; [apply series_max_extremum|].
  intros Hne. unfold select_file. rewrite Hold.
  set (acc := (old ++ new)%list) in *.
  assert (Ht : map Time acc <> []) by (destruct acc; [congruence|discriminate]).
  assert (Hd : map DoseRate acc <> []) by (destruct acc; [congruence|discriminate]).
  assert (Hc : map CountRate acc <> []) by (destruct acc; [congruence|discriminate]).
  cbv zeta.
  match goal with
  | |- context [with_ui ?w (match ?m with MDoseRate => ?a | MCountRate => ?b end)] =>
      set (s0 := with_ui w (match m with MDoseRate => a | MCountRate => b end))
  end.
  assert (Hs0 : setAbsoluteMin s0 <> None /\ setAbsoluteRange s0 <> None).
  { subst s0. simpl. destruct (metricSelected s); simpl; unfold fsub.
    - pose proof (series_ext_some Qle_bool _ Hd).
      pose proof (series_ext_some (fun x y => Qle_bool y x) _ Hd).
      unfold series_min, series_max.
      destruct (series_ext Qle_bool _), (series_ext (fun x y => Qle_bool y x) _);
        split; congruence.
    - pose proof (series_ext_some Qle_bool _ Hc).
      pose proof (series_ext_some (fun x y => Qle_bool y x) _ Hc).
      unfold series_min, series_max.
      destruct (series_ext Qle_bool _), (series_ext (fun x y => Qle_bool y x) _);
        split; congruence. }
  simpl min_time. simpl max_time.
  pose proof (series_ext_some Z.leb _ Ht) as Hmin.
  pose proof (series_ext_some Z.geb _ Ht) as Hmax.
  unfold time_min, time_max.
  destruct (series_ext Z.leb (map Time acc)) as [tmin|]; [|congruence].
  destruct (series_ext Z.geb (map Time acc)) as [tmax|]; [|congruence].
  destruct Hs0 as [Hm Hr].
  assert (Hstep : forall t s1, setAbsoluteMin s1 <> None -> setAbsoluteRange s1 <> None ->
                  (exists s2, setDateTime_start t s1 = Ok s2
                              /\ setAbsoluteMin s2 <> None /\ setAbsoluteRange s2 <> None)
                  /\ (exists s2, setDateTime_stop t s1 = Ok s2
                              /\ setAbsoluteMin s2 <> None /\ setAbsoluteRange s2 <> None)).
  { intros t s1 H1 H2. split.
    - pose proof (setDateTime_start_keeps t s1) as K.
      unfold setDateTime_start in *. destruct (_ =? _)%Z; [eauto|].
      destruct (update_display_returns (with_ui (with_start_time_edit t (ui s1)) s1))
        as [s2 E]; [assumption..|].
      rewrite E in *. simpl in K. destruct K as (_ & _ & K3 & _ & K5 & _).
      exists s2. rewrite K3, K5. auto.
    - pose proof (setDateTime_stop_keeps t s1) as K.
      unfold setDateTime_stop in *. destruct (_ =? _)%Z; [eauto|].
      destruct (update_display_returns (with_ui (with_stop_time_edit t (ui s1)) s1))
        as [s2 E]; [assumption..|].
      rewrite E in *. simpl in K. destruct K as (_ & _ & K3 & _ & K5 & _).
      exists s2. rewrite K3, K5. auto. }
  destruct (proj1 (Hstep (fromSecsSinceEpoch (timestamp_secs tmin)) s0 Hm Hr))
    as (s1 & -> & Hm1 & Hr1).
  simpl bind.
  destruct (proj2 (Hstep (fromSecsSinceEpoch (timestamp_secs tmax)) s1 Hm1 Hr1))
    as (s2 & -> & Hm2 & Hr2).
  simpl bind. now apply update_display_returns.
Qed.

End DatasetClaims.

Section ViewClaims.
Context {P : Platform}.

Lemma load_map_rendered_only lat lon zoom data metric color_range color_map (s : MapWindow) :
  rendered_only s (state_of (load_map lat lon zoom data metric color_range color_map s)).
Proof.
  unfold load_map.
  repeat break_match; unfold rendered_only; simpl; tauto.
Qed.

(** C10.  The view that [update_display] keeps and the view that
    [show_time_plot] charts are the rows of the loaded data whose time [t]
    has [start <= t <= stop], in the order of the loaded data: a row at
    [start] or at [stop] is kept. *)
Theorem filtered_view_is_closed_window (s : MapWindow) (loaded : DataFrame) :
  loaded_data s = Some loaded ->
  let start := start_time_edit (ui s) in
  let stop := stop_time_edit (ui s) in
  exists view,
    filtered_view start stop loaded view
    /\ (forall row, In row loaded -> (start <= stop)%Z ->
                    Time row = start \/ Time row = stop -> In row view)
    /\ ((color_min_slider (ui s) < color_max_slider (ui s))%Z ->
        filtered_data (state_of (update_display s)) = Some view)
    /\ show_time_plot s
       = match view with
         | [] => print no_data s
         | _ :: _ => with_time_plot_file (Some (plot_data view (metricSelected s))) s
         end.
Proof.
  intros Hl start stop.
  exists (filter (in_window start stop) loaded).
  pose proof (filter_is_filtered_view start stop loaded) as Hv.
  split; [exact Hv|]. split; [|split].
  - intros row Hin Hle Hb. apply (proj1 (proj2 Hv)). split; [assumption|].
    destruct Hb as [-> | ->]; lia.
  - intros Hsl. unfold update_display. rewrite Hl. simpl color_min_slider.
    simpl color_max_slider.
    destruct (_ >=? _)%Z eqn:E; [apply Z.geb_le in E; lia|].
    simpl start_time_edit. simpl stop_time_edit. fold start stop.
    destruct (filter (in_window start stop) loaded) eqn:Ef; [reflexivity|].
    match goal with
    | |- filtered_data (state_of (load_map ?a ?b ?c ?d ?e ?f ?g ?s0)) = _ =>
        destruct (load_map_rendered_only a b c d e f g s0) as (_ & _ & _ & -> & _)
    end.
    reflexivity.
  - unfold show_time_plot. rewrite Hl. reflexivity.
Qed.



End ViewClaims.

Section FilterClaims.
Context {P : Platform}.

Lemma filter_nil_iff {A : Type} (f : A -> bool) (l : list A) :
  (forall x, In x l -> f x = false) -> filter f l = [].
Proof.
  induction l as [|x l IH]; intros H; simpl; [reflexivity|].
  rewrite (H x (or_introl eq_refl)). apply IH. intros y Hy. apply H. now right.
Qed.

Lemma empty_view_filter (s : MapWindow) (loaded : DataFrame) :
  empty_view s loaded ->
  filter (in_window (start_time_edit (ui s)) (stop_time_edit (ui s))) loaded = [].
Proof.
  intros H. apply filter_nil_iff. intros row Hin.
  destruct (in_window _ _ row) eqn:E; [|reflexivity].
  apply in_window_spec in E. now apply H in Hin.
Qed.

Lemma update_display_empty_view (s : MapWindow) (loaded : DataFrame) :
  loaded_data s = Some loaded ->
  empty_view s loaded ->
  (color_min_slider (ui s) < color_max_slider (ui s))%Z ->
  update_display s
  = Ok (print no_data
          (with_filtered_data (Some [])
             (with_times (Some (start_time_edit (ui s))) (Some (stop_time_edit (ui s)))
                (with_ui
                   (with_labels
                      (slider_absolute (color_min_slider (ui s))
                         (with_selection (display_field_dropdown (ui s))
                            (colormap_dropdown (ui s)) s),
                       metricUnits (display_field_dropdown (ui s)))
                      (slider_absolute (color_max_slider (ui s))
                         (with_selection (display_field_dropdown (ui s))
                            (colormap_dropdown (ui s)) s),
                       metricUnits (display_field_dropdown (ui s)))
                      (ui s))
                   (with_selection (display_field_dropdown (ui s))
                      (colormap_dropdown (ui s)) s))))).
Proof.
  intros Hl He Hs. unfold update_display. rewrite Hl. simpl.
  destruct (_ >=? _)%Z eqn:E; [apply Z.geb_le in E; lia|].
  now rewrite (empty_view_filter s loaded He).
Qed.

Lemma update_display_bad_sliders (s : MapWindow) (loaded : DataFrame) :
  loaded_data s = Some loaded ->
  (color_min_slider (ui s) >= color_max_slider (ui s))%Z ->
  update_display s
  = Ok (print range_error
          (with_selection (display_field_dropdown (ui s)) (colormap_dropdown (ui s)) s)).
Proof.
  intros Hl Hs. unfold update_display. rewrite Hl. simpl.
  destruct (_ >=? _)%Z eqn:E; [reflexivity|].
  rewrite Z.geb_leb in E. apply Z.leb_gt in E. lia.
Qed.

(** C2, amended.  With data loaded and [start > stop] or relative
    [min >= max], [update_display] returns without rendering: the map
    document and the loaded data stay as they were and a message is
    printed.  The metric and the palette of the dropdowns are taken over
    all the same.  When the sliders are at fault nothing else changes;
    when only the time window is, the window is recorded and the view is
    left empty. *)
Theorem invalid_filter_keeps_map (s : MapWindow) (loaded : DataFrame) :
  loaded_data s = Some loaded ->
  invalid_filter s ->
  exists s',
    update_display s = Ok s'
    /\ map_file s' = map_file s
    /\ loaded_data s' = Some loaded
    /\ metricSelected s' = display_field_dropdown (ui s)
    /\ current_colormap_name s' = colormap_dropdown (ui s)
    /\ ((color_min_slider (ui s) >= color_max_slider (ui s))%Z ->
        stdout s' = (stdout s ++ [range_error])%list
        /\ start_time s' = start_time s
        /\ stop_time s' = stop_time s
        /\ filtered_data s' = filtered_data s
        /\ ui s' = ui s)
    /\ ((color_min_slider (ui s) < color_max_slider (ui s))%Z ->
        stdout s' = (stdout s ++ [no_data])%list
        /\ start_time s' = Some (start_time_edit (ui s))
        /\ stop_time s' = Some (stop_time_edit (ui s))
        /\ filtered_data s' = Some []).
Proof.
  intros Hl Hinv.
  destruct (Z_lt_ge_dec (color_min_slider (ui s)) (color_max_slider (ui s))) as [Hs|Hs].
  - destruct Hinv as [Ht|Hb]; [|lia].
    assert (He : empty_view s loaded) by (intros row _; lia).
    rewrite (update_display_empty_view s loaded Hl He Hs).
    eexists. split; [reflexivity|]. simpl.
    repeat split; try assumption; try reflexivity; lia.
  - rewrite (update_display_bad_sliders s loaded Hl Hs).
    eexists. split; [reflexivity|]. simpl.
    repeat split; try assumption; try reflexivity; lia.
Qed.


Lemma subseq_map {A B : Type} (f : A -> B) (l1 l2 : list A) :
  subseq l1 l2 -> subseq (map f l1) (map f l2).
Proof. induction 1; simpl; now constructor. Qed.

Lemma subseq_In {A : Type} (l1 l2 : list A) (x : A) :
  subseq l1 l2 -> In x l1 -> In x l2.
Proof.
  induction 1 as [|y l1 l2 H IH|y l1 l2 H IH]; simpl; intros Hin; auto.
  destruct Hin; auto.
Qed.

Lemma StronglySorted_subseq {A : Type} (R : A -> A -> Prop) (l1 l2 : list A) :
  subseq l1 l2 -> StronglySorted R l2 -> StronglySorted R l1.
Proof.
  induction 1 as [|y l1 l2 H IH|y l1 l2 H IH]; intros Hs.
  - constructor.
  - inversion Hs; subst. now apply IH.
  - inversion Hs as [|? ? Hs' Hall]; subst. constructor; [now apply IH|].
    rewrite Forall_forall in *. intros x Hx. apply Hall.
    eapply subseq_In; eassumption.
Qed.

(** C9, amended.  For a view that is not empty, [show_time_plot] writes a
    chart whose trace is the view row by row, in the order of the loaded
    data and with no sort: its times are those of the view in that order,
    so the chart is chronological exactly when the view already is, as it
    is when the loaded data is. *)
Theorem time_plot_keeps_load_order (s : MapWindow) (loaded : DataFrame) :
  loaded_data s = Some loaded ->
  let view := filter (in_window (start_time_edit (ui s)) (stop_time_edit (ui s))) loaded in
  view <> [] ->
  exists fig,
    show_time_plot s = with_time_plot_file (Some fig) s
    /\ trace fig = map (fun row => (Time row, getitem (metricSelected s) row)) view
    /\ map fst (trace fig) = map Time view
    /\ subseq (map fst (trace fig)) (map Time loaded)
    /\ (StronglySorted Z.le (map fst (trace fig)) <-> StronglySorted Z.le (map Time view))
    /\ (StronglySorted Z.le (map Time loaded) -> StronglySorted Z.le (map fst (trace fig))).
Proof.
  intros Hl view Hne.
  exists (plot_data view (metricSelected s)).
  assert (Ht : map fst (trace (plot_data view (metricSelected s))) = map Time view).
  { simpl. rewrite map_map. reflexivity. }
  assert (Hsub : subseq (map Time view) (map Time loaded))
    by apply subseq_map, filter_subseq.
  split; [|split; [reflexivity|split; [exact Ht|rewrite Ht; split; [exact Hsub|split]]]].
  - unfold show_time_plot. rewrite Hl. fold view. destruct view; [congruence|reflexivity].
  - reflexivity.
  - now apply StronglySorted_subseq.
Qed.

(** C6, amended.  [clear_data] returns with no data loaded, both ends of
    the time window at the current time and the bare initial basemap as
    the map document; the sliders, the dropdowns, the selected metric and
    palette and the extrema of the data just dropped stay as they were. *)
Theorem clear_drops_data_and_keeps_sliders (now : Z) (s : MapWindow) :
  exists s',
    clear_data now s = Ok s'
    /\ loaded_data s' = None
    /\ map_file s' = Some (mkMap (0, 0) 2 [] None)
    /\ start_time_edit (ui s') = now
    /\ stop_time_edit (ui s') = now
    /\ color_min_slider (ui s') = color_min_slider (ui s)
    /\ color_max_slider (ui s') = color_max_slider (ui s)
    /\ display_field_dropdown (ui s') = display_field_dropdown (ui s)
    /\ colormap_dropdown (ui s') = colormap_dropdown (ui s)
    /\ selection s' = selection s
    /\ extrema s' = extrema s
    /\ setAbsoluteMin s' = setAbsoluteMin s
    /\ setAbsoluteRange s' = setAbsoluteRange s.
Proof.
  unfold clear_data, setDateTime_start, setDateTime_stop, update_display, selection.
  destruct (now =? start_time_edit (ui (with_loaded_data None s)))%Z eqn:E1; simpl.
  - apply Z.eqb_eq in E1. simpl in E1.
    destruct (now =? stop_time_edit (ui s))%Z eqn:E2; simpl.
    + apply Z.eqb_eq in E2. eexists. split; [reflexivity|]. simpl.
      repeat split; congruence.
    + eexists. split; [reflexivity|]. simpl. repeat split; congruence.
  - destruct (now =? stop_time_edit (ui s))%Z eqn:E2; simpl.
    + apply Z.eqb_eq in E2. eexists. split; [reflexivity|]. simpl.
      repeat split; congruence.
    + eexists. split; [reflexivity|]. simpl. repeat split; congruence.
Qed.

End FilterClaims.

(** ** The program run on the scenarios *)


Lemma selection_metric {P : Platform} (s s' : MapWindow) :
  selection s = selection s' -> metricSelected s = metricSelected s'.
Proof. unfold selection. congruence. Qed.

Lemma metric_switched_legend :
  legend_shown metric_switched
  = Some (22000 # 100000, 38000 # 100000, "CountRate [cps]").
Proof. vm_compute. reflexivity. Qed.

Lemma metric_switched_affine :
  exists lo hi,
    affine (color_min_slider (ui metric_switched)) (metric_min metric_switched)
      (metric_max metric_switched) = Some lo
    /\ affine (color_max_slider (ui metric_switched)) (metric_min metric_switched)
         (metric_max metric_switched) = Some hi
    /\ lo == 22 /\ hi == 38.
Proof.
  eexists. eexists. split; [vm_compute; reflexivity|].
  split; [vm_compute; reflexivity|]. split; vm_compute; reflexivity.
Qed.

(** C1.  After a switch from DoseRate to CountRate with the sliders at 30
    and 70, the window records CountRate, whose extrema are 10 and 50, and
    the colour bar carries the CountRate caption; its range is still
    0.22 .. 0.38, the relative window on the DoseRate extrema, and not the
    22 .. 38 that the relative window is on the CountRate extrema. *)
Theorem metric_switch_keeps_stale_window :
  metricSelected metric_switched = MCountRate
  /\ metric_min metric_switched = Some (10 # 1)
  /\ metric_max metric_switched = Some (50 # 1)
  /\ color_min_slider (ui metric_switched) = 30%Z
  /\ color_max_slider (ui metric_switched) = 70%Z
  /\ (exists lo hi,
        legend_shown metric_switched = Some (lo, hi, "CountRate [cps]")
        /\ lo == 22 # 100 /\ hi == 38 # 100)
  /\ (exists lo hi,
        affine 30 (Some (10 # 1)) (Some (50 # 1)) = Some lo /\ lo == 22
        /\ affine 70 (Some (10 # 1)) (Some (50 # 1)) = Some hi /\ hi == 38)
  /\ ~ window_follows_metric metric_switched.
Proof.
  split; [vm_compute; reflexivity|]. split; [vm_compute; reflexivity|].
  split; [vm_compute; reflexivity|]. split; [vm_compute; reflexivity|].
  split; [vm_compute; reflexivity|]. split; [|split].
  - eexists. eexists. split; [exact metric_switched_legend|].
    split; vm_compute; reflexivity.
  - eexists. eexists. split; [vm_compute; reflexivity|].
    split; [vm_compute; reflexivity|]. split; vm_compute; reflexivity.
  - intros H.
    destruct (H _ _ _ metric_switched_legend) as (lo & hi & Ha & _ & Hv & _).
    destruct metric_switched_affine as (lo' & hi' & Ha' & _ & Hlo & _).
    rewrite Ha' in Ha. injection Ha as <-.
    rewrite Hlo in Hv. vm_compute in Hv. discriminate Hv.
Qed.

Lemma metric_picked_before :
  metricSelected metric_picked_with_bad_sliders = MDoseRate.
Proof. vm_compute. reflexivity. Qed.

Lemma metric_picked_after :
  metricSelected (state_of (update_display metric_picked_with_bad_sliders)) = MCountRate.
Proof. vm_compute. reflexivity. Qed.

(** C2 as worded fails: with the sliders at 100 and 100, picking CountRate
    makes [update_display] record CountRate as the selected metric. *)
Lemma invalid_filter_commits_metric :
  loaded_data metric_picked_with_bad_sliders = Some track_a
  /\ invalid_filter metric_picked_with_bad_sliders
  /\ ~ update_rejected metric_picked_with_bad_sliders.
Proof.
  split; [vm_compute; reflexivity|]. split.
  - right. vm_compute. discriminate.
  - intros [H _]. apply selection_metric in H.
    pose proof (eq_trans (eq_sym metric_picked_after) (eq_trans H metric_picked_before))
      as Hne.
    discriminate Hne.
Qed.





Lemma two_tracks_times :
  trace_times (show_time_plot two_tracks_loaded)
  = Some [0; 10000000000; 5000000000]%Z.
Proof. vm_compute. reflexivity. Qed.

(** C9 as worded fails: with [track_b] loaded after [track_a] the chart
    goes through the times 0 s, 10 s, 5 s. *)
Lemma merged_tracks_chart_out_of_order :
  ~ chart_is_chronological two_tracks_loaded.
Proof.
  intros H. specialize (H _ two_tracks_times).
  inversion H as [|? ? H1 _]; subst.
  inversion H1 as [|? ? _ H2]; subst.
  inversion H2 as [|? ? H3 _]; subst. lia.
Qed.

Lemma sliders_narrowed_cleared :
  color_min_slider (ui (state_of (clear_data 0 sliders_narrowed))) = 30%Z.
Proof. vm_compute. reflexivity. Qed.

(** C6 as worded fails: [clear_data] leaves the sliders at 30 and 70. *)
Lemma clear_leaves_sliders :
  ~ cleared_to_defaults 0 sliders_narrowed.
Proof.
  intros (_ & H & _).
  pose proof (eq_trans (eq_sym sliders_narrowed_cleared) H) as Hne.
  discriminate Hne.
Qed.

(** *** The theorems at work *)

(** On the grey palette over 0 .. 1: -5 takes the first grey, 7 the last. *)
Lemma colorOf_clamps_to_palette_ends_gray :
  0 < 1
  /\ colormap_at (build_colormap (P := gray) "viridis" 0 1 "") (-5 # 1) = Some 0%Z
  /\ colormap_at (build_colormap (P := gray) "viridis" 0 1 "") (7 # 1) = Some 255%Z.
Proof.
  assert (H : 0 < 1) by reflexivity.
  destruct (colorOf_clamps_to_palette_ends (P := gray) "viridis" 0 1 "" H)
    as (_ & _ & _ & H0 & H1 & Hlow & Hhigh).
  split; [exact H|]. split.
  - rewrite (Hlow (-5 # 1)) by (apply Qle_bool_iff; reflexivity). exact H0.
  - rewrite (Hhigh (7 # 1)) by (apply Qle_bool_iff; reflexivity). exact H1.
Defined.

(** [track_b] loaded after [track_a]: the second load returns. *)
Lemma load_appends_and_recomputes_tracks :
  loaded_data (state_of (select_file (P := gray) (Some track_a) init)) = Some track_a
  /\ exists s1,
       select_file (P := gray) (Some track_b)
         (state_of (select_file (P := gray) (Some track_a) init)) = Ok s1.
Proof.
  assert (H : loaded_data (state_of (select_file (P := gray) (Some track_a) init))
              = Some track_a) by (vm_compute; reflexivity).
  destruct (load_appends_and_recomputes (P := gray) _ track_a track_b H)
    as (acc & _ & Hacc & _ & _ & _ & _ & _ & _ & _ & Hok).
  split; [exact H|]. apply Hok. rewrite Hacc. intros Hc. discriminate Hc.
Defined.

(** Both tracks loaded: the rows at the two ends of the window are in the
    view that [update_display] keeps. *)
Lemma filtered_view_is_closed_window_tracks :
  loaded_data two_tracks_loaded = Some (track_a ++ track_b)%list
  /\ exists view,
       filtered_data (state_of (update_display two_tracks_loaded)) = Some view
       /\ forall row, In row (track_a ++ track_b)%list ->
                      Time row = start_time_edit (ui two_tracks_loaded)
                      \/ Time row = stop_time_edit (ui two_tracks_loaded) ->
                      In row view.
Proof.
  assert (H : loaded_data two_tracks_loaded = Some (track_a ++ track_b)%list)
    by (vm_compute; reflexivity).
  destruct (filtered_view_is_closed_window (P := gray) _ _ H)
    as (view & _ & Hb & Hu & _).
  split; [exact H|]. exists view. split.
  - apply Hu. vm_compute. reflexivity.
  - intros row Hin Ht. apply Hb; [exact Hin| |exact Ht].
    vm_compute. intros Hc. discriminate Hc.
Defined.


(** Sliders at 100 and 100: [update_display] returns and the map stays. *)
Lemma invalid_filter_keeps_map_bad_sliders :
  loaded_data metric_picked_with_bad_sliders = Some track_a
  /\ invalid_filter metric_picked_with_bad_sliders
  /\ exists s', update_display metric_picked_with_bad_sliders = Ok s'
                /\ map_file s' = map_file metric_picked_with_bad_sliders.
Proof.
  assert (H : loaded_data metric_picked_with_bad_sliders = Some track_a)
    by (vm_compute; reflexivity).
  assert (Hi : invalid_filter metric_picked_with_bad_sliders)
    by (right; vm_compute; intros Hc; discriminate Hc).
  destruct (invalid_filter_keeps_map (P := gray) _ _ H Hi) as (s' & Hu & Hm & _).
  split; [exact H|]. split; [exact Hi|]. exists s'. split; assumption.
Defined.


(** Both tracks loaded: the chart runs through 0 s, 10 s, 5 s. *)
Lemma time_plot_keeps_load_order_tracks :
  loaded_data two_tracks_loaded = Some (track_a ++ track_b)%list
  /\ exists fig,
       show_time_plot two_tracks_loaded = with_time_plot_file (Some fig) two_tracks_loaded
       /\ map fst (trace fig) = [0; 10000000000; 5000000000]%Z.
Proof.
  assert (H : loaded_data two_tracks_loaded = Some (track_a ++ track_b)%list)
    by (vm_compute; reflexivity).
  assert (Hne : filter (in_window (start_time_edit (ui two_tracks_loaded))
                          (stop_time_edit (ui two_tracks_loaded)))
                  (track_a ++ track_b)%list <> [])
    by (vm_compute; intros Hc; discriminate Hc).
  destruct (time_plot_keeps_load_order (P := gray) _ _ H Hne) as (fig & Hs & _ & Ht & _).
  split; [exact H|]. exists fig. split; [exact Hs|]. rewrite Ht.
  vm_compute. reflexivity.
Defined.

(** ** Track parser: claims *)

Section ParserFacts.
Import Parser ParserSpec.
Context {P : Platform}.








End ParserFacts.

Import Parser ParserSpec.



